(** * CLAHE binding of opencv4nodejs (packages/bytebot-cv/opencv4nodejs/CLAHE.cc)

    A shallow embedding of the argument marshalling done by the CLAHE
    binding: the helpers of its anonymous namespace ([sanitizeSize],
    [extractSize], [parseClipLimit]) and the methods [New], [Apply],
    [SetClipLimit], [GetClipLimit], [SetTilesGridSize], [GetTilesGridSize]
    and [CollectGarbage].

    - A C++ [double] is an IEEE 754 value, [spec_float] of the standard
      library.  The binding never adds or multiplies doubles: it rounds them,
      compares them with [0.0] and converts them to and from [int], and these
      operations are defined here on the value [m * 2^e] itself.
    - A C++ [int] is a [Z]; [static_cast<int>] of a double outside the range
      of [int] (or of a NaN) is left to the platform.
    - JavaScript values are finite trees; what V8 and the helper libraries
      (FF converters, cv::Mat, cv::CLAHE::apply) do is taken as parameters of
      the section. *)

From Stdlib Require Import ZArith List String Bool Lia.
From Stdlib Require Import Floats.SpecFloat.
Import ListNotations.
Local Open Scope string_scope.
Local Open Scope Z_scope.

(** ** C++ numbers *)

Definition double : Type := spec_float.

Definition NaN : double := S754_nan.
(** The literals of the source: [0.0], [8.0] and [40.0]. *)
Definition d0_0 : double := S754_zero false.
Definition d8_0 : double := S754_finite false 1 3.
Definition d40_0 : double := S754_finite false 5 3.
(** Further values, for the examples: 0.25, 1.0, 2.5, 4.0, 5.0, -5.0 and 1e10. *)
Definition d0_25 : double := S754_finite false 1 (-2).
Definition d1_0 : double := S754_finite false 1 0.
Definition d2_5 : double := S754_finite false 5 (-1).
Definition d4_0 : double := S754_finite false 1 2.
Definition d5_0 : double := S754_finite false 5 0.
Definition dm5_0 : double := S754_finite true 5 0.
Definition d1e10 : double := S754_finite false 9765625 10.
(** 2147483647.5, the first double that rounds past [INT_MAX]. *)
Definition d2147483647_5 : double := S754_finite false 4294967295 (-1).

Definition INT_MIN : Z := - 2 ^ 31.
Definition INT_MAX : Z := 2 ^ 31 - 1.

Definition in_int_range (z : Z) : bool := (INT_MIN <=? z) && (z <=? INT_MAX).

(** [std::max(a, b)] is [(a < b) ? b : a], on doubles and on ints. *)
Definition std_max_double (a b : double) : double :=
  if SFltb a b then b else a.

Definition std_max_int (a b : Z) : Z :=
  if a <? b then b else a.

(** The integer nearest to [m * 2^e], halfway cases away from zero. *)
Definition round_mag (m : positive) (e : Z) : Z :=
  if 0 <=? e then Z.pos m * 2 ^ e
  else
    let d := 2 ^ (- e) in
    Z.pos m / d + (if d <=? 2 * (Z.pos m mod d) then 1 else 0).

(** The double of sign [s] and integral magnitude [n]. *)
Definition integral (s : bool) (n : Z) : double :=
  match n with
  | Zpos p => S754_finite s p 0
  | _ => S754_zero s
  end.

(** [std::round]: nearest integer, halfway cases away from zero; zeros,
    infinities and NaN are returned as they are. *)
Definition std_round (x : double) : double :=
  match x with
  | S754_finite s m e => integral s (round_mag m e)
  | _ => x
  end.

(** The integral part of a finite double (rounding toward zero). *)
Definition truncate (x : double) : option Z :=
  match x with
  | S754_zero _ => Some 0
  | S754_finite s m e =>
      let n := if 0 <=? e then Z.pos m * 2 ^ e else Z.pos m / 2 ^ (- e) in
      Some (if s then - n else n)
  | S754_infinity _ | S754_nan => None
  end.

(** What "rounded to the nearest integer" asks of an integer [z] for a
    double [x], stated on the value of [x] and not through [std_round]: [z]
    has the sign of [x], and [|z| <= |x| + 1/2 < |z| + 1] (so a halfway
    case goes away from zero).  An infinity or a NaN has none. *)
Definition nearest_integer (x : double) (z : Z) : Prop :=
  match x with
  | S754_zero _ => z = 0
  | S754_finite s m e =>
      (if s then z <= 0 else 0 <= z)
      /\ (if 0 <=? e then Z.abs z = Z.pos m * 2 ^ e
          else 2 * 2 ^ (- e) * Z.abs z <= 2 * Z.pos m + 2 ^ (- e)
               < 2 * 2 ^ (- e) * (Z.abs z + 1))
  | S754_infinity _ | S754_nan => False
  end.

(** The implicit conversion of an [int] to [double] (exact). *)
Definition double_of_int (z : Z) : double :=
  match z with
  | Z0 => S754_zero false
  | Zpos p => S754_finite false p 0
  | Zneg p => S754_finite true p 0
  end.

(** [cv::Size]. *)
Record Size : Type := mkSize { width : Z; height : Z }.

(** ** JavaScript values, as the binding observes them through V8 *)

#[local] Unset Elimination Schemes.
Inductive Value : Type :=
| Undefined
| Null
| Boolean (b : bool)
| Number (d : double)
| String (s : string)
| Symbol (description : string)
| Array (elements : list Value)
| Object (properties : list (string * Value)).
#[local] Set Elimination Schemes.

Definition IsUndefined (v : Value) : bool :=
  match v with Undefined => true | _ => false end.
Definition IsNull (v : Value) : bool :=
  match v with Null => true | _ => false end.
Definition IsNumber (v : Value) : bool :=
  match v with Number _ => true | _ => false end.
Definition IsArray (v : Value) : bool :=
  match v with Array _ => true | _ => false end.
(** An array is an object too. *)
Definition IsObject (v : Value) : bool :=
  match v with Array _ | Object _ => true | _ => false end.

(** [Nan::Has(obj, key).FromMaybe(false)] and [Nan::Get(obj, key)]: a
    property that is not there reads as [undefined]. *)
Fixpoint Has (obj : list (string * Value)) (key : string) : bool :=
  match obj with
  | [] => false
  | (k, _) :: rest => if String.eqb k key then true else Has rest key
  end.

Fixpoint Get (obj : list (string * Value)) (key : string) : Value :=
  match obj with
  | [] => Undefined
  | (k, v) :: rest => if String.eqb k key then v else Get rest key
  end.

(** [arr->Length()] and [Nan::Get(arr, i)]. *)
Definition Length (arr : list Value) : Z := Z.of_nat (List.length arr).
Definition GetIndex (arr : list Value) (i : nat) : Value := nth i arr Undefined.

(** [value->ToObject(context)] of a value that is an object. *)
Definition ToObject (v : Value) : list (string * Value) :=
  match v with Object obj => obj | _ => [] end.

(** [Maybe<T>::FromMaybe]. *)
Definition FromMaybe {A : Type} (m : option A) (default : A) : A :=
  match m with Some a => a | None => default end.

(** ** Induction on values *)

Section Value_induction.
Variable P : Value -> Prop.
Hypothesis P_Undefined : P Undefined.
Hypothesis P_Null : P Null.
Hypothesis P_Boolean : forall b, P (Boolean b).
Hypothesis P_Number : forall d, P (Number d).
Hypothesis P_String : forall s, P (String s).
Hypothesis P_Symbol : forall s, P (Symbol s).
Hypothesis P_Array : forall arr, Forall P arr -> P (Array arr).
Hypothesis P_Object : forall obj, Forall (fun kv => P (snd kv)) obj -> P (Object obj).

Fixpoint Value_ind (v : Value) : P v :=
  match v with
  | Undefined => P_Undefined
  | Null => P_Null
  | Boolean b => P_Boolean b
  | Number d => P_Number d
  | String s => P_String s
  | Symbol s => P_Symbol s
  | Array arr =>
      P_Array arr
        ((fix all (l : list Value) : Forall P l :=
            match l with
            | [] => Forall_nil P
            | x :: rest => Forall_cons x (Value_ind x) (all rest)
            end) arr)
  | Object obj =>
      P_Object obj
        ((fix all (l : list (string * Value)) : Forall (fun kv => P (snd kv)) l :=
            match l with
            | [] => Forall_nil _
            | kv :: rest => Forall_cons kv (Value_ind (snd kv)) (all rest)
            end) obj)
  end.
End Value_induction.

(** ** Sample platform, for evaluating the binding on concrete inputs *)

(** x86-64: [cvttsd2si] answers the "integer indefinite" value when the
    double does not fit. *)
Definition x86_indefinite (_ : double) : Z := INT_MIN.

(** A stand-in for the conversion of strings, arrays and objects to a
    number: all of them convert to NaN, as "bad" and a plain object do.  No
    example below converts a string or an object that would give another
    number. *)
Definition plain_ConvertToNumber (_ : Value) : option double := Some NaN.

(** A double converter that accepts a number and nothing else. *)
Definition number_DoubleConverter (a : option Value) : option double :=
  match a with Some (Number d) => Some d | _ => None end.

(** Images as rows of pixels, and a converter that reads an array of arrays
    of numbers. *)
Definition sample_Mat : Type := list (list double).

Definition sample_row (v : Value) : option (list double) :=
  match v with
  | Array cells =>
      fold_right
        (fun c acc =>
           match c, acc with
           | Number d, Some r => Some (d :: r)
           | _, _ => None
           end) (Some []) cells
  | _ => None
  end.

Definition sample_MatConverter (a : option Value) : option sample_Mat :=
  match a with
  | Some (Array rows) =>
      fold_right
        (fun r acc =>
           match sample_row r, acc with
           | Some row, Some m => Some (row :: m)
           | _, _ => None
           end) (Some []) rows
  | _ => None
  end.

(** ** The external equalizer

    [cv::CLAHE] as the binding uses it: an object that stores a clip limit
    and a tile grid, set at creation and by its two setters and read back by
    its two getters.  [collectGarbage] releases buffers and leaves both. *)

Record cv_CLAHE : Type := mk_cv_CLAHE { clipLimit_ : double; tilesGridSize_ : Size }.

Definition createCLAHE (clipLimit : double) (tileGridSize : Size) : cv_CLAHE :=
  mk_cv_CLAHE clipLimit tileGridSize.
Definition setClipLimit (c : cv_CLAHE) (clipLimit : double) : cv_CLAHE :=
  mk_cv_CLAHE clipLimit (tilesGridSize_ c).
Definition getClipLimit (c : cv_CLAHE) : double := clipLimit_ c.
Definition setTilesGridSize (c : cv_CLAHE) (tileGridSize : Size) : cv_CLAHE :=
  mk_cv_CLAHE (clipLimit_ c) tileGridSize.
Definition getTilesGridSize (c : cv_CLAHE) : Size := tilesGridSize_ c.
Definition collectGarbage (c : cv_CLAHE) : cv_CLAHE := c.

(** For the examples: an equalizer that copies the source. *)
Definition sample_apply (c : cv_CLAHE) (src dst : sample_Mat) : sample_Mat := src.

(** [class CLAHE : public Nan::ObjectWrap], with its one field. *)
Record CLAHE : Type := mkCLAHE { instance : cv_CLAHE }.

(** ** Calls *)

(** The identity of a JavaScript object. *)
Definition ObjectRef : Type := nat.

(** [Nan::FunctionCallbackInfo]: [info[i]] is [undefined] from
    [info.Length()] on. *)
Record FunctionCallbackInfo : Type := mkInfo {
  IsConstructCall : bool;
  This : ObjectRef;
  Holder : ObjectRef;
  args : list Value
}.

Definition info_Length (info : FunctionCallbackInfo) : Z :=
  Z.of_nat (List.length (args info)).
Definition arg (info : FunctionCallbackInfo) (i : nat) : Value :=
  nth i (args info) Undefined.

(** [new CLAHE(a1, ..., an)] on a fresh object [holder]. *)
Definition construct_call (holder : ObjectRef) (arguments : list Value) : FunctionCallbackInfo :=
  mkInfo true holder holder arguments.

(** [receiver.method(a1, ..., an)]. *)
Definition method_call (receiver : ObjectRef) (arguments : list Value) : FunctionCallbackInfo :=
  mkInfo false receiver receiver arguments.

(** The methods of the prototype that [Init] registers. *)
Inductive Method : Type :=
| apply_
| setClipLimit_
| getClipLimit_
| setTilesGridSize_
| getTilesGridSize_
| collectGarbage_.

(** The two methods that write the configuration. *)
Definition is_setter (m : Method) : bool :=
  match m with
  | setClipLimit_ | setTilesGridSize_ => true
  | _ => false
  end.

(** [value] wrapped [n] times as [{tileGridSize: ...}]. *)
Fixpoint nested (n : nat) (value : Value) : Value :=
  match n with
  | O => value
  | S n' => Object [("tileGridSize", nested n' value)]
  end.

Section Binding.

(** What the binding takes from its environment.

    - [ConvertToNumber]: ECMAScript ToNumber on a string, an array or an
      object (parsing, or a conversion that runs user code); [None] when it
      throws.
    - [int_of_unrepresentable]: what [static_cast<int>] answers for a double
      that has no [int] value.
    - [DoubleConverter], [MatConverter]: [FF::DoubleConverter::arg] and
      [Mat::Converter::arg] on an argument slot ([None] for a slot past
      [info.Length()]); they answer [None] when they raise their error.
    - [Mat], [empty_Mat], [cv_apply]: [cv::Mat], a default-constructed one,
      and the destination after [cv::CLAHE::apply(src, dst)]. *)
Variable ConvertToNumber : Value -> option double.
Variable int_of_unrepresentable : double -> Z.
Variable DoubleConverter : option Value -> option double.
Variable Mat : Type.
Variable MatConverter : option Value -> option Mat.
Variable empty_Mat : Mat.
Variable cv_apply : cv_CLAHE -> Mat -> Mat -> Mat.

(** [Nan::To<double>(value)]: ECMAScript ToNumber. *)
Definition To_double (value : Value) : option double :=
  match value with
  | Undefined => Some NaN
  | Null => Some d0_0
  | Boolean b => Some (if b then d1_0 else d0_0)
  | Number d => Some d
  | Symbol _ => None
  | String _ | Array _ | Object _ => ConvertToNumber value
  end.

(** [static_cast<int>(x)]. *)
Definition static_cast_int (x : double) : Z :=
  match truncate x with
  | Some z => if in_int_range z then z else int_of_unrepresentable x
  | None => int_of_unrepresentable x
  end.

(** ** The helpers of the anonymous namespace *)

Definition sanitizeSize (size : Size) : Size :=
  let width := std_max_int 1 (width size) in
  let height := std_max_int 1 (height size) in
  mkSize width height.

(** [extractSize(value, out)]: the flag returned, and [out] after the call.
    The lookup of "tileGridSize" is written as a walk over the properties so
    that the recursive call is on a part of [value]; [extractSize_eq] below
    restates the function with [Has] and [Get], as the source has it. *)
Fixpoint extractSize (value : Value) (out : Size) {struct value} : bool * Size :=
  match value with
  | Array arr =>
      if Length arr <? 2 then (false, out)
      else
        let width := FromMaybe (To_double (GetIndex arr 0)) (double_of_int (width out)) in
        let height := FromMaybe (To_double (GetIndex arr 1)) (double_of_int (height out)) in
        (true, sanitizeSize (mkSize (static_cast_int (std_round width))
                                    (static_cast_int (std_round height))))
  | Object obj =>
      if Has obj "width" || Has obj "height" then
        let width := FromMaybe (To_double (Get obj "width")) (double_of_int (width out)) in
        let height := FromMaybe (To_double (Get obj "height")) (double_of_int (height out)) in
        (true, sanitizeSize (mkSize (static_cast_int (std_round width))
                                    (static_cast_int (std_round height))))
      else
        (fix tileGridSize (properties : list (string * Value)) : bool * Size :=
           match properties with
           | [] => (false, out)
           | (k, v) :: rest =>
               if String.eqb k "tileGridSize" then extractSize v out
               else tileGridSize rest
           end) obj
  | Number d =>
      let len := FromMaybe (To_double (Number d)) d8_0 in
      let side := std_max_int 1 (static_cast_int (std_round len)) in
      (true, mkSize side side)
  | _ => (false, out)
  end.

(** The side that [extractSize] makes of a number [x]:
    [std::max(1, static_cast<int>(std::round(x)))]. *)
Definition side_of (x : double) : Z :=
  std_max_int 1 (static_cast_int (std_round x)).

(** [parseClipLimit(value, clipLimit)]: the flag, and [clipLimit] after. *)
Definition parseClipLimit (value : Value) (clipLimit : double) : bool * double :=
  if negb (IsUndefined value) && negb (IsNull value) then
    if negb (IsNumber value) then (false, clipLimit)
    else (true, FromMaybe (To_double value) clipLimit)
  else (true, clipLimit).

(** ** The methods *)

Inductive Returned : Type :=
| RObject (ref : ObjectRef)
| RNumber (d : double)
| RSize (w h : double)
| RMat (m : Mat).

(** How a call ends: a value is set as the return value; [tryCatch.throwError]
    raises an error with a message; [tryCatch.reThrow] lets the error of a
    converter through; [FF_ASSERT_CONSTRUCT_CALL] refuses a call without
    [new]. *)
Inductive Completion : Type :=
| Returns (r : Returned)
| throwError (tryCatch message : string)
| reThrow (tryCatch : string)
| NotConstructCall (tryCatch : string).

(** [CLAHE::New]: how the call ends, and the object wrapped into
    [info.Holder()], if any. *)
Definition New (info : FunctionCallbackInfo) : Completion * option CLAHE :=
  let tryCatch := "CLAHE::New" in
  if negb (IsConstructCall info) then (NotConstructCall tryCatch, None)
  else
    let clipLimit := d40_0 in
    let tiles := mkSize 8 8 in
    let first : option (double * Size) :=
      if (0 <? info_Length info) && IsObject (arg info 0)
         && negb (IsArray (arg info 0)) && negb (IsNumber (arg info 0))
      then
        let opts := ToObject (arg info 0) in
        let clipLimit :=
          if Has opts "clipLimit"
          then FromMaybe (To_double (Get opts "clipLimit")) clipLimit
          else clipLimit in
        let tiles := snd (extractSize (arg info 0) tiles) in
        Some (clipLimit, tiles)
      else if 0 <? info_Length info then
        let (parsed, clipLimit) := parseClipLimit (arg info 0) clipLimit in
        if parsed then Some (clipLimit, tiles)
        else
          let (extracted, tiles) := extractSize (arg info 0) tiles in
          if extracted then Some (clipLimit, tiles) else None
      else Some (clipLimit, tiles) in
    match first with
    | None => (throwError tryCatch "Invalid arguments for CLAHE constructor", None)
    | Some (clipLimit, tiles) =>
        let (extracted, tiles) :=
          if 1 <? info_Length info then extractSize (arg info 1) tiles
          else (true, tiles) in
        if negb extracted then (throwError tryCatch "Unable to parse tileGridSize", None)
        else
          let clipLimit := std_max_double d0_0 clipLimit in
          let tiles := sanitizeSize tiles in
          let self := mkCLAHE (createCLAHE clipLimit tiles) in
          (Returns (RObject (Holder info)), Some self)
    end.

(** The part of [New] that reads the first argument, on its own: what the
    constructor has read once it is past it, or [None] when it raises
    there ([New_eq] below). *)
Definition first_argument (info : FunctionCallbackInfo) : option (double * Size) :=
  let clipLimit := d40_0 in
  let tiles := mkSize 8 8 in
  if (0 <? info_Length info) && IsObject (arg info 0)
     && negb (IsArray (arg info 0)) && negb (IsNumber (arg info 0))
  then
    let opts := ToObject (arg info 0) in
    let clipLimit :=
      if Has opts "clipLimit"
      then FromMaybe (To_double (Get opts "clipLimit")) clipLimit
      else clipLimit in
    let tiles := snd (extractSize (arg info 0) tiles) in
    Some (clipLimit, tiles)
  else if 0 <? info_Length info then
    let (parsed, clipLimit) := parseClipLimit (arg info 0) clipLimit in
    if parsed then Some (clipLimit, tiles)
    else
      let (extracted, tiles) := extractSize (arg info 0) tiles in
      if extracted then Some (clipLimit, tiles) else None
  else Some (clipLimit, tiles).

(** [CLAHE::Apply] on the object unwrapped from [info.This()]. *)
Definition Apply (self : CLAHE) (info : FunctionCallbackInfo) : Completion * CLAHE :=
  let tryCatch := "CLAHE::apply" in
  match MatConverter (nth_error (args info) 0) with
  | None => (reThrow tryCatch, self)
  | Some src =>
      let destination : option (Mat * bool) :=
        if (1 <? info_Length info) && negb (IsUndefined (arg info 1))
           && negb (IsNull (arg info 1))
        then
          match MatConverter (nth_error (args info) 1) with
          | None => None
          | Some dst => Some (dst, true)
          end
        else Some (empty_Mat, false) in
      match destination with
      | None => (reThrow tryCatch, self)
      | Some (dst, hasDst) =>
          if hasDst then (Returns (RMat (cv_apply (instance self) src dst)), self)
          else
            let result := empty_Mat in
            (Returns (RMat (cv_apply (instance self) src result)), self)
      end
  end.

Definition SetClipLimit (self : CLAHE) (info : FunctionCallbackInfo) : Completion * CLAHE :=
  let tryCatch := "CLAHE::setClipLimit" in
  match DoubleConverter (nth_error (args info) 0) with
  | None => (reThrow tryCatch, self)
  | Some clipLimit =>
      (Returns (RObject (This info)),
       mkCLAHE (setClipLimit (instance self) (std_max_double d0_0 clipLimit)))
  end.

Definition GetClipLimit (self : CLAHE) (info : FunctionCallbackInfo) : Completion * CLAHE :=
  (Returns (RNumber (getClipLimit (instance self))), self).

Definition SetTilesGridSize (self : CLAHE) (info : FunctionCallbackInfo) : Completion * CLAHE :=
  let tryCatch := "CLAHE::setTilesGridSize" in
  let tiles := sanitizeSize (mkSize 8 8) in
  let (extracted, tiles) := extractSize (arg info 0) tiles in
  if negb extracted then (throwError tryCatch "Unable to parse tilesGridSize", self)
  else
    (Returns (RObject (This info)),
     mkCLAHE (setTilesGridSize (instance self) (sanitizeSize tiles))).

Definition GetTilesGridSize (self : CLAHE) (info : FunctionCallbackInfo) : Completion * CLAHE :=
  let tiles := getTilesGridSize (instance self) in
  (Returns (RSize (double_of_int (width tiles)) (double_of_int (height tiles))), self).

Definition CollectGarbage (self : CLAHE) (info : FunctionCallbackInfo) : Completion * CLAHE :=
  (Returns (RObject (This info)), mkCLAHE (collectGarbage (instance self))).

(** The accessors [clipLimit] and [tilesGridSize] that [Init] sets on the
    instance template: what reading the property of the object gives. *)
Definition ClipLimitGetter (self : CLAHE) : Completion :=
  Returns (RNumber (getClipLimit (instance self))).

Definition TilesGridSizeGetter (self : CLAHE) : Completion :=
  let tiles := getTilesGridSize (instance self) in
  Returns (RSize (double_of_int (width tiles)) (double_of_int (height tiles))).

(** A call of a method of the prototype, and a sequence of them on one
    object. *)
Definition invoke (m : Method) : CLAHE -> FunctionCallbackInfo -> Completion * CLAHE :=
  match m with
  | apply_ => Apply
  | setClipLimit_ => SetClipLimit
  | getClipLimit_ => GetClipLimit
  | setTilesGridSize_ => SetTilesGridSize
  | getTilesGridSize_ => GetTilesGridSize
  | collectGarbage_ => CollectGarbage
  end.

Fixpoint run (self : CLAHE) (calls : list (Method * FunctionCallbackInfo)) : CLAHE :=
  match calls with
  | [] => self
  | (m, info) :: rest => run (snd (invoke m self info)) rest
  end.

(** The configuration is the one the spec asks for: a clip limit that is at
    least 0 and a grid of at least one tile each way. *)
Definition well_configured (self : CLAHE) : Prop :=
  SFleb d0_0 (getClipLimit (instance self)) = true
  /\ 1 <= width (getTilesGridSize (instance self))
  /\ 1 <= height (getTilesGridSize (instance self)).

(** ** Numbers *)

Lemma std_max_int_max (a b : Z) : std_max_int a b = Z.max a b.
Proof.
  unfold std_max_int. destruct (Z.ltb_spec a b); lia.
Qed.

Lemma std_max_int_ge_1 (z : Z) : 1 <= std_max_int 1 z.
Proof.
  rewrite std_max_int_max. lia.
Qed.

(** [std::max(0.0, x)] is never below zero, and never NaN. *)
Lemma std_max_double_0_nonneg (x : double) : SFleb d0_0 (std_max_double d0_0 x) = true.
Proof.
  unfold std_max_double.
  destruct x as [s | s | | s m e]; try destruct s; reflexivity.
Qed.

Lemma std_max_double_0_pos (x : double) :
  SFltb d0_0 x = true -> std_max_double d0_0 x = x.
Proof.
  unfold std_max_double. intros ->. reflexivity.
Qed.

(** A negative number, a zero of either sign and NaN all become [0.0]. *)
Lemma std_max_double_0_clamps (x : double) :
  SFltb d0_0 x = false -> std_max_double d0_0 x = d0_0.
Proof.
  unfold std_max_double. intros ->. reflexivity.
Qed.

(** [round_mag m e] is the integer [n] with [n <= m * 2^e + 1/2 < n + 1]. *)
Lemma round_mag_nearest (m : positive) (e : Z) :
  e < 0 ->
  let d := 2 ^ (- e) in
  2 * d * round_mag m e <= 2 * Z.pos m + d < 2 * d * (round_mag m e + 1).
Proof.
  intros He d. unfold round_mag.
  destruct (Z.leb_spec 0 e) as [H0 | _]; [lia |].
  fold d.
  assert (Hd : 0 < d) by (apply Z.pow_pos_nonneg; lia).
  pose proof (Z.div_mod (Z.pos m) d ltac:(lia)) as Hdm.
  pose proof (Z.mod_pos_bound (Z.pos m) d Hd) as Hb.
  destruct (Z.leb_spec d (2 * (Z.pos m mod d))); nia.
Qed.

Lemma round_mag_integer (m : positive) (e : Z) :
  0 <= e -> round_mag m e = Z.pos m * 2 ^ e.
Proof.
  intros He. unfold round_mag.
  destruct (Z.leb_spec 0 e); [reflexivity | lia].
Qed.

Lemma round_mag_nonneg (m : positive) (e : Z) : 0 <= round_mag m e.
Proof.
  unfold round_mag. destruct (Z.leb_spec 0 e).
  - apply Z.mul_nonneg_nonneg; [lia | apply Z.pow_nonneg; lia].
  - assert (0 < 2 ^ (- e)) by (apply Z.pow_pos_nonneg; lia).
    assert (0 <= Z.pos m / 2 ^ (- e)) by (apply Z.div_pos; lia).
    destruct (_ <=? _); lia.
Qed.

(** The integer a double stands for after [std::round]. *)
Lemma truncate_std_round (s : bool) (m : positive) (e : Z) :
  truncate (std_round (S754_finite s m e))
  = Some (if s then - round_mag m e else round_mag m e).
Proof.
  simpl. pose proof (round_mag_nonneg m e) as H.
  destruct (round_mag m e) as [| p | p]; simpl.
  - destruct s; reflexivity.
  - rewrite ?Pos.mul_1_r, ?Z.mul_1_r. reflexivity.
  - lia.
Qed.

Lemma truncate_double_of_int (z : Z) : truncate (double_of_int z) = Some z.
Proof.
  destruct z; simpl; try rewrite Pos.mul_1_r; reflexivity.
Qed.

Lemma std_round_double_of_int (z : Z) : std_round (double_of_int z) = double_of_int z.
Proof.
  destruct z; simpl; try rewrite Pos.mul_1_r; reflexivity.
Qed.

(** [std_round] gives the nearest integer, and no other integer is. *)
Lemma nearest_integer_std_round (x : double) (z : Z) :
  nearest_integer x z <-> truncate (std_round x) = Some z.
Proof.
  destruct x as [s | s | | s m e]; cbn [nearest_integer].
  - cbn. split; [intros -> | intros [= <-]]; reflexivity.
  - split; [contradiction | discriminate].
  - split; [contradiction | discriminate].
  - rewrite truncate_std_round.
    pose proof (round_mag_nonneg m e) as Hn.
    assert (Hmag : (if 0 <=? e then Z.abs z = Z.pos m * 2 ^ e
                    else 2 * 2 ^ (- e) * Z.abs z <= 2 * Z.pos m + 2 ^ (- e)
                         < 2 * 2 ^ (- e) * (Z.abs z + 1))
                   <-> Z.abs z = round_mag m e).
    { destruct (Z.leb_spec 0 e) as [He | He].
      - rewrite (round_mag_integer m e He). reflexivity.
      - pose proof (round_mag_nearest m e He) as Hr. cbv zeta in Hr.
        assert (Hd : 0 < 2 ^ (- e)) by (apply Z.pow_pos_nonneg; lia).
        split.
        + intros Hz.
          assert (Z.abs z < round_mag m e + 1) by nia.
          assert (round_mag m e < Z.abs z + 1) by nia.
          lia.
        + intros ->. exact Hr. }
    rewrite Hmag. destruct s; (split; [intros [Hs Ha]; f_equal; lia | intros [= <-]; lia]).
Qed.

(** ** The helpers *)

Lemma sanitizeSize_ge_1 (size : Size) :
  1 <= width (sanitizeSize size) /\ 1 <= height (sanitizeSize size).
Proof.
  unfold sanitizeSize. simpl. split; apply std_max_int_ge_1.
Qed.

Lemma sanitizeSize_max (size : Size) :
  sanitizeSize size = mkSize (Z.max 1 (width size)) (Z.max 1 (height size)).
Proof.
  unfold sanitizeSize. rewrite !std_max_int_max. reflexivity.
Qed.

Lemma sanitizeSize_idempotent (size : Size) :
  sanitizeSize (sanitizeSize size) = sanitizeSize size.
Proof.
  rewrite !sanitizeSize_max. simpl. f_equal; lia.
Qed.

(** [extractSize] as the source states it: the array, then the object with
    a "width" or a "height", then the object with a "tileGridSize", then the
    number. *)
Lemma extractSize_eq (value : Value) (out : Size) :
  extractSize value out =
  if IsArray value then
    match value with
    | Array arr =>
        if Length arr <? 2 then (false, out)
        else
          let width := FromMaybe (To_double (GetIndex arr 0)) (double_of_int (width out)) in
          let height := FromMaybe (To_double (GetIndex arr 1)) (double_of_int (height out)) in
          (true, sanitizeSize (mkSize (static_cast_int (std_round width))
                                      (static_cast_int (std_round height))))
    | _ => (false, out)
    end
  else if IsObject value
          && (Has (ToObject value) "width" || Has (ToObject value) "height") then
    let obj := ToObject value in
    let width := FromMaybe (To_double (Get obj "width")) (double_of_int (width out)) in
    let height := FromMaybe (To_double (Get obj "height")) (double_of_int (height out)) in
    (true, sanitizeSize (mkSize (static_cast_int (std_round width))
                                (static_cast_int (std_round height))))
  else if IsObject value && Has (ToObject value) "tileGridSize" then
    extractSize (Get (ToObject value) "tileGridSize") out
  else if IsNumber value then
    let len := FromMaybe (To_double value) d8_0 in
    let side := std_max_int 1 (static_cast_int (std_round len)) in
    (true, mkSize side side)
  else (false, out).
Proof.
  destruct value as [| | b | d | s | s | arr | obj]; try reflexivity.
  cbn [extractSize IsArray IsObject IsNumber ToObject andb].
  destruct (Has obj "width" || Has obj "height"); [reflexivity |].
  induction obj as [| [k v] rest IH]; [reflexivity |].
  cbn [Has Get]. destruct (String.eqb k "tileGridSize"); [reflexivity | exact IH].
Qed.

(** When [extractSize] answers [false] it has left [out] as it was. *)
Lemma extractSize_false (value : Value) :
  forall out, fst (extractSize value out) = false -> snd (extractSize value out) = out.
Proof.
  induction value as [| | b | d | s | s | arr _ | obj IH] using Value_ind;
    intros out; try reflexivity.
  - simpl. discriminate.
  - simpl. destruct (Length arr <? 2); [reflexivity | discriminate].
  - cbn [extractSize].
    destruct (Has obj "width" || Has obj "height"); [discriminate |].
    induction IH as [| [k v] rest Hv _ IHrest]; [reflexivity |].
    destruct (String.eqb k "tileGridSize"); [apply Hv | exact IHrest].
Qed.

(** When it answers [true] the size it wrote has both sides at least 1. *)
Lemma extractSize_true_ge_1 (value : Value) :
  forall out, fst (extractSize value out) = true ->
  1 <= width (snd (extractSize value out)) /\ 1 <= height (snd (extractSize value out)).
Proof.
  induction value as [| | b | d | s | s | arr _ | obj IH] using Value_ind;
    intros out; try discriminate.
  - intros _. simpl. split; apply std_max_int_ge_1.
  - simpl. destruct (Length arr <? 2); [discriminate |].
    intros _. apply sanitizeSize_ge_1.
  - cbn [extractSize].
    destruct (Has obj "width" || Has obj "height").
    + intros _. apply sanitizeSize_ge_1.
    + induction IH as [| [k v] rest Hv _ IHrest]; [discriminate |].
      destruct (String.eqb k "tileGridSize"); [apply Hv | exact IHrest].
Qed.

(** A size that [sanitizeSize] has seen stays put under [extractSize]
    followed by [sanitizeSize]. *)
Lemma extractSize_ge_1 (value : Value) (out : Size) :
  1 <= width out -> 1 <= height out ->
  1 <= width (snd (extractSize value out)) /\ 1 <= height (snd (extractSize value out)).
Proof.
  intros Hw Hh.
  destruct (fst (extractSize value out)) eqn:E.
  - apply extractSize_true_ge_1; exact E.
  - rewrite (extractSize_false value out E). split; assumption.
Qed.

Lemma parseClipLimit_false (value : Value) (clipLimit : double) :
  fst (parseClipLimit value clipLimit) = false ->
  snd (parseClipLimit value clipLimit) = clipLimit.
Proof.
  unfold parseClipLimit. destruct value; simpl; intros H; reflexivity || discriminate.
Qed.

(** Whether a value resolves to a size does not depend on [out]. *)
Lemma extractSize_flag (value : Value) :
  forall out out', fst (extractSize value out) = fst (extractSize value out').
Proof.
  induction value as [| | b | d | s | s | arr _ | obj IH] using Value_ind;
    intros out out'; try reflexivity.
  - simpl. destruct (Length arr <? 2); reflexivity.
  - cbn [extractSize].
    destruct (Has obj "width" || Has obj "height"); [reflexivity |].
    induction IH as [| [k v] rest Hv _ IHrest]; [reflexivity |].
    destruct (String.eqb k "tileGridSize"); [apply Hv | exact IHrest].
Qed.

(** ** The constructor *)

(** What [New] builds, when it builds: the clip limit went through
    [std::max(0.0, _)] and the tiles through [sanitizeSize]. *)
Lemma New_built (info : FunctionCallbackInfo) (self : CLAHE) :
  snd (New info) = Some self ->
  fst (New info) = Returns (RObject (Holder info))
  /\ exists clipLimit tiles,
       self = mkCLAHE (createCLAHE (std_max_double d0_0 clipLimit) (sanitizeSize tiles)).
Proof.
  unfold New.
  destruct (negb (IsConstructCall info)); [discriminate |].
  match goal with
  | |- context [match ?f with Some _ => _ | None => _ end] => destruct f as [[clipLimit tiles] |]
  end; [| discriminate].
  destruct (if 1 <? info_Length info then _ else _) as [extracted tiles'].
  destruct extracted; simpl; [| discriminate].
  intros [= <-]. split; [reflexivity |]. eauto.
Qed.

(** When [New] does not return the object, it has wrapped none. *)
Lemma New_not_built (info : FunctionCallbackInfo) :
  (forall r, fst (New info) <> Returns r) -> snd (New info) = None.
Proof.
  intros H. destruct (snd (New info)) as [self |] eqn:E; [| reflexivity].
  destruct (New_built info self E) as [Hr _]. elim (H _ Hr).
Qed.

Lemma New_eq (info : FunctionCallbackInfo) :
  New info =
  if negb (IsConstructCall info) then (NotConstructCall "CLAHE::New", None)
  else
    match first_argument info with
    | None => (throwError "CLAHE::New" "Invalid arguments for CLAHE constructor", None)
    | Some (clipLimit, tiles) =>
        if 1 <? info_Length info then
          if fst (extractSize (arg info 1) tiles) then
            (Returns (RObject (Holder info)),
             Some (mkCLAHE (createCLAHE (std_max_double d0_0 clipLimit)
                              (sanitizeSize (snd (extractSize (arg info 1) tiles))))))
          else (throwError "CLAHE::New" "Unable to parse tileGridSize", None)
        else
          (Returns (RObject (Holder info)),
           Some (mkCLAHE (createCLAHE (std_max_double d0_0 clipLimit) (sanitizeSize tiles))))
    end.
Proof.
  unfold New. fold (first_argument info).
  destruct (negb (IsConstructCall info)); [reflexivity |].
  destruct (first_argument info) as [[clipLimit tiles] |]; [| reflexivity].
  destruct (1 <? info_Length info); [| reflexivity].
  destruct (extractSize (arg info 1) tiles) as [[|] tiles']; reflexivity.
Qed.

(** ** Rounded doubles as ints *)

Lemma static_cast_int_fits (x : double) (z : Z) :
  truncate x = Some z -> in_int_range z = true -> static_cast_int x = z.
Proof.
  unfold static_cast_int. intros -> ->. reflexivity.
Qed.

(** A double above zero rounds to an integer that is not negative. *)
Lemma round_of_positive (x : double) (z : Z) :
  SFltb d0_0 x = true -> truncate (std_round x) = Some z -> 0 <= z.
Proof.
  intros Hpos Hz.
  destruct x as [s | s | | s m e]; try discriminate.
  destruct s; [discriminate |].
  rewrite truncate_std_round in Hz. injection Hz as <-.
  apply round_mag_nonneg.
Qed.

Lemma in_int_range_nonneg (z : Z) : 0 <= z -> z <= INT_MAX -> in_int_range z = true.
Proof.
  unfold in_int_range, INT_MIN, INT_MAX. intros H0 H1.
  apply andb_true_iff. split; apply Z.leb_le; lia.
Qed.

(** [std::max(1, static_cast<int>(std::round(x)))] for a positive [x] whose
    rounded value fits an [int]. *)
Lemma rounded_side (x : double) (z : Z) :
  SFltb d0_0 x = true -> truncate (std_round x) = Some z -> z <= INT_MAX ->
  std_max_int 1 (static_cast_int (std_round x)) = Z.max 1 z.
Proof.
  intros Hpos Hz Hmax.
  rewrite (static_cast_int_fits _ z Hz).
  - apply std_max_int_max.
  - apply in_int_range_nonneg; [exact (round_of_positive x z Hpos Hz) | exact Hmax].
Qed.

(** ** Properties of the binding *)

(** C1 (as amended): for positive numbers [w] and [h], the three shapes
    [[w, h]], [{width: w, height: h}] and [{tileGridSize: [w, h]}] resolve to
    the same size, each side rounded, converted to [int] and raised to 1 when
    it is less.  When the rounded values [zw] and [zh] fit an [int] the size
    is [(max 1 zw, max 1 zh)]: the rounded pair itself when both are at
    least 1. *)
Theorem C1_size_shapes_agree (w h : double) (out : Size) :
  SFltb d0_0 w = true -> SFltb d0_0 h = true ->
  extractSize (Array [Number w; Number h]) out
    = (true, mkSize (side_of w) (side_of h))
  /\ extractSize (Object [("width", Number w); ("height", Number h)]) out
    = (true, mkSize (side_of w) (side_of h))
  /\ extractSize (Object [("tileGridSize", Array [Number w; Number h])]) out
    = (true, mkSize (side_of w) (side_of h))
  /\ (forall zw zh,
        truncate (std_round w) = Some zw -> truncate (std_round h) = Some zh ->
        zw <= INT_MAX -> zh <= INT_MAX ->
        mkSize (side_of w) (side_of h) = mkSize (Z.max 1 zw) (Z.max 1 zh)
        /\ (1 <= zw -> 1 <= zh -> mkSize (side_of w) (side_of h) = mkSize zw zh)).
Proof.
  intros Hw Hh.
  split; [reflexivity |]. split; [reflexivity |]. split.
  - rewrite extractSize_eq.
    cbn [IsArray IsObject ToObject Has Get String.eqb Ascii.eqb Bool.eqb orb andb].
    reflexivity.
  - intros zw zh Hzw Hzh Mw Mh. unfold side_of.
    rewrite (rounded_side w zw Hw Hzw Mw), (rounded_side h zh Hh Hzh Mh).
    split; [reflexivity |]. intros G1 G2. f_equal; lia.
Qed.

(** C3: [new CLAHE()] has clip limit 40.0 and an 8 by 8 grid. *)
Theorem C3_no_arguments (holder : ObjectRef) :
  New (construct_call holder [])
  = (Returns (RObject holder), Some (mkCLAHE (createCLAHE d40_0 (mkSize 8 8)))).
Proof.
  reflexivity.
Qed.

Lemma sanitizeSize_fixed (size : Size) :
  1 <= width size -> 1 <= height size -> sanitizeSize size = size.
Proof.
  intros Hw Hh. rewrite sanitizeSize_max. destruct size as [w h]. simpl in *.
  f_equal; lia.
Qed.

Lemma extractSize_true_sanitized (value : Value) (out : Size) :
  fst (extractSize value out) = true ->
  sanitizeSize (snd (extractSize value out)) = snd (extractSize value out).
Proof.
  intros H. destruct (extractSize_true_ge_1 value out H).
  apply sanitizeSize_fixed; assumption.
Qed.

Lemma info_Length_cons (b : bool) (t h : ObjectRef) (a : Value) (rest : list Value) :
  (0 <? info_Length (mkInfo b t h (a :: rest))) = true.
Proof.
  unfold info_Length. cbn [args List.length]. apply Z.ltb_lt. lia.
Qed.

Lemma info_Length_cons2 (b : bool) (t h : ObjectRef) (a a' : Value) (rest : list Value) :
  (1 <? info_Length (mkInfo b t h (a :: a' :: rest))) = true.
Proof.
  unfold info_Length. cbn [args List.length]. apply Z.ltb_lt. lia.
Qed.

(** What the constructor reads from its first argument does not depend on
    the arguments after it. *)
Lemma first_argument_cons (holder : ObjectRef) (a : Value) (rest : list Value) :
  first_argument (construct_call holder (a :: rest))
  = first_argument (construct_call holder [a]).
Proof.
  unfold first_argument, construct_call. rewrite !info_Length_cons. reflexivity.
Qed.

(** C2 (as amended): for a number [N] above zero, [new CLAHE(N)] has clip
    limit [N] and the default 8 by 8 grid; [N] as the second argument, after
    any first argument that the constructor accepts on its own, keeps the
    clip limit of that first argument (40.0 after [undefined]) and sets both
    sides of the grid to [N] rounded, converted to [int] and raised to 1 when
    it is less: [max 1 z] when the rounded value [z] fits an [int], which is
    [z] when [z] is at least 1.  An array as the only argument is read as a
    size and leaves the clip limit at 40.0; an object that is not an array
    as the only argument is read as the options. *)
Theorem C2_number_dispatch (N : double) (holder : ObjectRef) :
  SFltb d0_0 N = true ->
  New (construct_call holder [Number N])
    = (Returns (RObject holder), Some (mkCLAHE (createCLAHE N (mkSize 8 8))))
  /\ New (construct_call holder [Undefined; Number N])
    = (Returns (RObject holder),
       Some (mkCLAHE (createCLAHE d40_0 (mkSize (side_of N) (side_of N)))))
  /\ (forall first self,
        snd (New (construct_call holder [first])) = Some self ->
        New (construct_call holder [first; Number N])
        = (Returns (RObject holder),
           Some (mkCLAHE (createCLAHE (getClipLimit (instance self))
                            (mkSize (side_of N) (side_of N))))))
  /\ (forall z, truncate (std_round N) = Some z -> z <= INT_MAX ->
        side_of N = Z.max 1 z /\ (1 <= z -> side_of N = z))
  /\ (forall arr, fst (extractSize (Array arr) (mkSize 8 8)) = true ->
      New (construct_call holder [Array arr])
        = (Returns (RObject holder),
           Some (mkCLAHE (createCLAHE d40_0 (snd (extractSize (Array arr) (mkSize 8 8)))))))
  /\ (forall opts,
      New (construct_call holder [Object opts])
        = (Returns (RObject holder),
           Some (mkCLAHE (createCLAHE
                   (std_max_double d0_0
                      (if Has opts "clipLimit"
                       then FromMaybe (To_double (Get opts "clipLimit")) d40_0
                       else d40_0))
                   (sanitizeSize (snd (extractSize (Object opts) (mkSize 8 8)))))))).
Proof.
  intros HN.
  assert (Second : forall first clipLimit tiles,
             first_argument (construct_call holder [first]) = Some (clipLimit, tiles) ->
             New (construct_call holder [first; Number N])
             = (Returns (RObject holder),
                Some (mkCLAHE (createCLAHE (std_max_double d0_0 clipLimit)
                                 (mkSize (side_of N) (side_of N)))))).
  { intros first clipLimit tiles Hfirst.
    rewrite New_eq, first_argument_cons, Hfirst.
    unfold construct_call. rewrite info_Length_cons2.
    cbn [IsConstructCall negb Holder arg args nth extractSize To_double FromMaybe fst snd].
    fold (side_of N).
    rewrite sanitizeSize_fixed
      by (cbn [width height]; apply std_max_int_ge_1).
    reflexivity. }
  split; [| split; [| split; [| split; [| split]]]].
  - rewrite New_eq. unfold first_argument.
    cbn [construct_call IsConstructCall negb info_Length args List.length Z.of_nat
         Pos.of_succ_nat Z.ltb Z.compare arg nth IsObject IsArray IsNumber andb
         parseClipLimit IsUndefined IsNull Holder To_double FromMaybe].
    rewrite (std_max_double_0_pos N HN). reflexivity.
  - apply (Second Undefined d40_0 (mkSize 8 8)). reflexivity.
  - intros first self Hself.
    rewrite New_eq in Hself. cbn [construct_call IsConstructCall negb] in Hself.
    destruct (first_argument (construct_call holder [first]))
      as [[clipLimit tiles] |] eqn:Hfirst; [| discriminate].
    cbn in Hself. injection Hself as <-.
    apply (Second first clipLimit tiles Hfirst).
  - intros z Hz Mz. unfold side_of. rewrite (rounded_side N z HN Hz Mz).
    split; [reflexivity | lia].
  - intros arr Harr. rewrite New_eq. unfold first_argument.
    cbn [construct_call IsConstructCall negb info_Length args List.length Z.of_nat
         Pos.of_succ_nat Z.ltb Z.compare arg nth IsObject IsArray IsNumber andb
         parseClipLimit IsUndefined IsNull Holder].
    destruct (extractSize (Array arr) (mkSize 8 8)) as [extracted tiles] eqn:E.
    cbn [fst snd] in Harr |- *. subst extracted.
    pose proof (extractSize_true_sanitized (Array arr) (mkSize 8 8)) as S.
    rewrite E in S. cbn [fst snd] in S. rewrite (S eq_refl). reflexivity.
  - intros opts. rewrite New_eq. reflexivity.
Qed.

(** ** The setters *)

Lemma SetClipLimit_eq (self : CLAHE) (info : FunctionCallbackInfo) :
  SetClipLimit self info =
  match DoubleConverter (nth_error (args info) 0) with
  | None => (reThrow "CLAHE::setClipLimit", self)
  | Some clipLimit =>
      (Returns (RObject (This info)),
       mkCLAHE (mk_cv_CLAHE (if SFltb d0_0 clipLimit then clipLimit else d0_0)
                  (getTilesGridSize (instance self))))
  end.
Proof.
  reflexivity.
Qed.

Lemma SetTilesGridSize_eq (self : CLAHE) (info : FunctionCallbackInfo) :
  SetTilesGridSize self info =
  if fst (extractSize (arg info 0) (mkSize 8 8)) then
    (Returns (RObject (This info)),
     mkCLAHE (mk_cv_CLAHE (getClipLimit (instance self))
                (snd (extractSize (arg info 0) (mkSize 8 8)))))
  else (throwError "CLAHE::setTilesGridSize" "Unable to parse tilesGridSize", self).
Proof.
  unfold SetTilesGridSize.
  replace (sanitizeSize (mkSize 8 8)) with (mkSize 8 8) by reflexivity.
  pose proof (extractSize_true_sanitized (arg info 0) (mkSize 8 8)) as S.
  destruct (extractSize (arg info 0) (mkSize 8 8)) as [[|] tiles]; cbn [fst snd negb] in *.
  - rewrite (S eq_refl). reflexivity.
  - reflexivity.
Qed.

(** The ways [Apply] can go: the source does not convert, the destination
    does not convert, or the equalizer runs. *)
Ltac Apply_cases info :=
  unfold Apply;
  destruct (MatConverter (nth_error (args info) 0));
  [ match goal with
    | |- context [match ?d with Some _ => _ | None => _ end] =>
        destruct d as [[? [|]] |]
    end
  | ].

(** Every method keeps a good configuration good. *)
Lemma invoke_well_configured (m : Method) (self : CLAHE) (info : FunctionCallbackInfo) :
  well_configured self -> well_configured (snd (invoke m self info)).
Proof.
  intros (Hc & Hw & Hh). destruct m; cbn [invoke].
  - Apply_cases info; repeat split; assumption.
  - rewrite SetClipLimit_eq.
    destruct (DoubleConverter (nth_error (args info) 0)) as [clipLimit |];
      [| repeat split; assumption].
    repeat split; try assumption.
    apply (std_max_double_0_nonneg clipLimit).
  - repeat split; assumption.
  - rewrite SetTilesGridSize_eq.
    destruct (fst (extractSize (arg info 0) (mkSize 8 8))) eqn:E;
      [| repeat split; assumption].
    destruct (extractSize_true_ge_1 _ _ E).
    repeat split; assumption.
  - repeat split; assumption.
  - repeat split; assumption.
Qed.

Lemma run_well_configured (calls : list (Method * FunctionCallbackInfo)) :
  forall self, well_configured self -> well_configured (run self calls).
Proof.
  induction calls as [| [m info] rest IH]; intros self H; [exact H |].
  cbn [run]. apply IH, invoke_well_configured, H.
Qed.

(** A pair of numbers resolves to their nearest integers, raised to 1 when
    they are less, when these fit an [int]. *)
Lemma extractSize_pair_nearest (w h : double) (zw zh : Z) (out : Size) :
  nearest_integer w zw -> nearest_integer h zh ->
  in_int_range zw = true -> in_int_range zh = true ->
  extractSize (Array [Number w; Number h]) out
  = (true, mkSize (Z.max 1 zw) (Z.max 1 zh)).
Proof.
  intros Hw Hh Rw Rh.
  apply nearest_integer_std_round in Hw, Hh.
  cbn [extractSize Length List.length Z.of_nat Pos.of_succ_nat Pos.succ Z.ltb
       Z.compare Pos.compare Pos.compare_cont GetIndex nth To_double FromMaybe].
  rewrite (static_cast_int_fits _ zw Hw Rw), (static_cast_int_fits _ zh Hh Rh).
  apply (f_equal (pair true)), sanitizeSize_max.
Qed.


(** C5 (as amended): an error that the binding raises with a message of its
    own carries one of three messages.  [New] raises "Invalid arguments for
    CLAHE constructor" or "Unable to parse tileGridSize"; of the methods
    only [SetTilesGridSize] raises one, and its message is "Unable to parse
    tilesGridSize". *)
Theorem C5_error_messages :
  (forall info tryCatch message,
      fst (New info) = throwError tryCatch message ->
      message = "Invalid arguments for CLAHE constructor"
      \/ message = "Unable to parse tileGridSize")
  /\ (forall m self info tryCatch message,
      fst (invoke m self info) = throwError tryCatch message ->
      m = setTilesGridSize_ /\ message = "Unable to parse tilesGridSize").
Proof.
  split.
  - intros info tryCatch message. rewrite New_eq.
    destruct (negb (IsConstructCall info)); [discriminate |].
    destruct (first_argument info) as [[clipLimit tiles] |].
    + destruct (1 <? info_Length info); [| discriminate].
      destruct (fst (extractSize (arg info 1) tiles)); [discriminate |].
      intros [= _ <-]. right. reflexivity.
    + intros [= _ <-]. left. reflexivity.
  - intros m self info tryCatch message. destruct m; cbn [invoke].
    + Apply_cases info; discriminate.
    + rewrite SetClipLimit_eq.
      destruct (DoubleConverter (nth_error (args info) 0)); discriminate.
    + discriminate.
    + rewrite SetTilesGridSize_eq.
      destruct (fst (extractSize (arg info 0) (mkSize 8 8))); [discriminate |].
      intros [= _ <-]. split; reflexivity.
    + discriminate.
    + discriminate.
Qed.

(** An object that is not an array always gets past the first stage of the
    constructor. *)
Lemma first_argument_options (holder : ObjectRef) (opts : list (string * Value)) :
  first_argument (construct_call holder [Object opts])
  = Some (if Has opts "clipLimit"
          then FromMaybe (To_double (Get opts "clipLimit")) d40_0
          else d40_0,
          snd (extractSize (Object opts) (mkSize 8 8))).
Proof.
  reflexivity.
Qed.

(** C6: with an options object as the only argument, a tile size that does
    not resolve from it is no error: the object is built with the default
    8 by 8 grid.  A second argument that does not resolve to a size, after
    an options object or after any first argument that the constructor
    accepts on its own, makes the constructor raise "Unable to parse
    tileGridSize", and no object is built. *)
Theorem C6_unresolved_tile_size (holder : ObjectRef) (opts : list (string * Value))
    (second : Value) (rest : list Value) :
  (fst (extractSize (Object opts) (mkSize 8 8)) = false ->
   exists clipLimit,
     New (construct_call holder [Object opts])
     = (Returns (RObject holder), Some (mkCLAHE (createCLAHE clipLimit (mkSize 8 8)))))
  /\ (fst (extractSize second (mkSize 8 8)) = false ->
      New (construct_call holder (Object opts :: second :: rest))
      = (throwError "CLAHE::New" "Unable to parse tileGridSize", None)
      /\ forall first self,
           snd (New (construct_call holder [first])) = Some self ->
           New (construct_call holder (first :: second :: rest))
           = (throwError "CLAHE::New" "Unable to parse tileGridSize", None)).
Proof.
  assert (Second : forall first clipLimit tiles,
             fst (extractSize second (mkSize 8 8)) = false ->
             first_argument (construct_call holder [first]) = Some (clipLimit, tiles) ->
             New (construct_call holder (first :: second :: rest))
             = (throwError "CLAHE::New" "Unable to parse tileGridSize", None)).
  { intros first clipLimit tiles Hsecond Hfirst.
    rewrite New_eq, first_argument_cons, Hfirst.
    unfold construct_call. rewrite info_Length_cons2.
    cbn [IsConstructCall negb arg args nth].
    rewrite (extractSize_flag second tiles (mkSize 8 8)), Hsecond. reflexivity. }
  split.
  - intros Hopts. eexists.
    rewrite New_eq, first_argument_options.
    cbn [construct_call IsConstructCall negb info_Length args List.length Z.of_nat
         Pos.of_succ_nat Z.ltb Z.compare Pos.compare Pos.compare_cont Holder].
    rewrite (extractSize_false _ _ Hopts). reflexivity.
  - intros Hsecond. split.
    + apply (Second (Object opts) _ _ Hsecond (first_argument_options holder opts)).
    + intros first self Hself.
      rewrite New_eq in Hself. cbn [construct_call IsConstructCall negb] in Hself.
      destruct (first_argument (construct_call holder [first]))
        as [[clipLimit tiles] |] eqn:Hfirst; [| discriminate].
      apply (Second first clipLimit tiles Hsecond Hfirst).
Qed.

(** C7: a call of [SetClipLimit] or of [SetTilesGridSize] that does not
    return leaves the object as it was, clip limit and grid; a call of the
    constructor that does not return has wrapped no object. *)
Theorem C7_failure_keeps_configuration :
  (forall self info,
      (forall r, fst (SetClipLimit self info) <> Returns r) ->
      snd (SetClipLimit self info) = self)
  /\ (forall self info,
      (forall r, fst (SetTilesGridSize self info) <> Returns r) ->
      snd (SetTilesGridSize self info) = self)
  /\ (forall info,
      (forall r, fst (New info) <> Returns r) -> snd (New info) = None).
Proof.
  split; [| split].
  - intros self info H. revert H. rewrite SetClipLimit_eq.
    destruct (DoubleConverter (nth_error (args info) 0)); [| reflexivity].
    intros H. elim (H _ eq_refl).
  - intros self info H. revert H. rewrite SetTilesGridSize_eq.
    destruct (fst (extractSize (arg info 0) (mkSize 8 8))); [| reflexivity].
    intros H. elim (H _ eq_refl).
  - exact New_not_built.
Qed.

(** C9: [SetClipLimit] called with an argument that its converter accepts,
    [SetTilesGridSize] called with an argument that resolves to a size, and
    [CollectGarbage] called with anything, return the receiver
    [info.This()]; and whenever one of the setters returns, what it returns
    is the receiver. *)
Theorem C9_returns_receiver (self : CLAHE) (info : FunctionCallbackInfo) :
  (forall x, DoubleConverter (nth_error (args info) 0) = Some x ->
             fst (SetClipLimit self info) = Returns (RObject (This info)))
  /\ (fst (extractSize (arg info 0) (mkSize 8 8)) = true ->
      fst (SetTilesGridSize self info) = Returns (RObject (This info)))
  /\ fst (CollectGarbage self info) = Returns (RObject (This info))
  /\ (forall r, fst (SetClipLimit self info) = Returns r -> r = RObject (This info))
  /\ (forall r, fst (SetTilesGridSize self info) = Returns r -> r = RObject (This info)).
Proof.
  split; [| split; [| split; [| split]]].
  - intros x Hx. rewrite SetClipLimit_eq, Hx. reflexivity.
  - intros Hsize. rewrite SetTilesGridSize_eq, Hsize. reflexivity.
  - reflexivity.
  - intros r. rewrite SetClipLimit_eq.
    destruct (DoubleConverter (nth_error (args info) 0)); [| discriminate].
    intros [= <-]. reflexivity.
  - intros r. rewrite SetTilesGridSize_eq.
    destruct (fst (extractSize (arg info 0) (mkSize 8 8))); [| discriminate].
    intros [= <-]. reflexivity.
Qed.

(** C10: [apply(src, undefined)] and [apply(src, null)] end as [apply(src)]
    does, whatever follows the second argument: the converter is not run on
    the second argument, and when [src] converts to an image the call
    returns the result of the equalizer on a default-constructed
    destination. *)
Theorem C10_absent_destination (self : CLAHE) (receiver : ObjectRef)
    (src : Value) (rest : list Value) :
  Apply self (method_call receiver (src :: Undefined :: rest))
    = Apply self (method_call receiver [src])
  /\ Apply self (method_call receiver (src :: Null :: rest))
    = Apply self (method_call receiver [src])
  /\ Apply self (method_call receiver [src])
    = match MatConverter (Some src) with
      | Some image => (Returns (RMat (cv_apply (instance self) image empty_Mat)), self)
      | None => (reThrow "CLAHE::apply", self)
      end.
Proof.
  unfold Apply, method_call.
  cbn [args nth_error arg nth IsUndefined IsNull negb andb].
  rewrite !andb_false_r.
  cbn [info_Length args List.length Z.of_nat Pos.of_succ_nat Z.ltb Z.compare
       Pos.compare Pos.compare_cont andb].
  destruct (MatConverter (Some src)); repeat split; reflexivity.
Qed.

(** C8 (what the code does at a missing field): with a "width" and no
    "height", the height that [extractSize] writes does not depend on the
    height that [out] held, so it is not the default; likewise with a
    "height" and no "width".  The missing field reads as [undefined], whose
    number is NaN, and [FromMaybe] falls back to [out] only when the
    conversion throws. *)
Theorem C8_missing_field_ignores_default (w h : double) (out out' : Size) :
  extractSize (Object [("width", Number w)]) out
    = extractSize (Object [("width", Number w)]) out'
  /\ height (snd (extractSize (Object [("width", Number w)]) out))
     = std_max_int 1 (static_cast_int NaN)
  /\ extractSize (Object [("height", Number h)]) out
     = extractSize (Object [("height", Number h)]) out'
  /\ width (snd (extractSize (Object [("height", Number h)]) out))
     = std_max_int 1 (static_cast_int NaN).
Proof.
  repeat split.
Qed.

(** The default is used where the conversion throws, as for a symbol. *)
Lemma extractSize_symbol_height (w : double) (s : string) (out : Size) :
  in_int_range (height out) = true ->
  height (snd (extractSize (Object [("width", Number w); ("height", Symbol s)]) out))
  = Z.max 1 (height out).
Proof.
  intros Hfit.
  cbn [extractSize Has Get String.eqb Ascii.eqb Bool.eqb orb To_double FromMaybe snd].
  unfold sanitizeSize. cbn [width height].
  rewrite std_round_double_of_int.
  rewrite (static_cast_int_fits _ _ (truncate_double_of_int _) Hfit).
  apply std_max_int_max.
Qed.

(** ** Further properties of the helpers *)

(** X1: [sanitizeSize] is idempotent, never lowers a side, and leaves a
    size as it is exactly when both sides are at least 1. *)
Theorem X1_sanitizeSize_closure (size : Size) :
  sanitizeSize (sanitizeSize size) = sanitizeSize size
  /\ width size <= width (sanitizeSize size)
  /\ height size <= height (sanitizeSize size)
  /\ (sanitizeSize size = size <-> 1 <= width size /\ 1 <= height size).
Proof.
  split; [apply sanitizeSize_idempotent |].
  rewrite sanitizeSize_max. destruct size as [w h]. cbn [width height].
  split; [lia |]. split; [lia |]. split.
  - intros [= Hw Hh]. lia.
  - intros [Hw Hh]. f_equal; lia.
Qed.

(** X2: when [extractSize] does not resolve a value it has not written to
    [out], and it does not resolve that value for any other [out] either. *)
Theorem X2_extractSize_failure_frame (value : Value) (out out' : Size) :
  fst (extractSize value out) = false ->
  snd (extractSize value out) = out
  /\ extractSize value out' = (false, out').
Proof.
  intros H. split; [apply extractSize_false, H |].
  assert (H' : fst (extractSize value out') = false)
    by (rewrite (extractSize_flag value out' out); exact H).
  pose proof (extractSize_false value out' H') as S.
  destruct (extractSize value out') as [flag size]. cbn [fst snd] in *.
  subst. reflexivity.
Qed.

(** X3: a size that [extractSize] resolves has both sides at least 1,
    whatever the value and whatever the conversions answer, so that
    [sanitizeSize] leaves it as it is. *)
Theorem X3_extractSize_resolved_positive (value : Value) (out : Size) :
  fst (extractSize value out) = true ->
  1 <= width (snd (extractSize value out))
  /\ 1 <= height (snd (extractSize value out))
  /\ sanitizeSize (snd (extractSize value out)) = snd (extractSize value out).
Proof.
  intros H. destruct (extractSize_true_ge_1 value out H) as [Hw Hh].
  repeat split; try assumption. apply sanitizeSize_fixed; assumption.
Qed.

(** X4: an array resolves exactly when it has at least two elements, and
    the elements after the second are not read. *)
Theorem X4_extractSize_array (arr : list Value) (out : Size) :
  fst (extractSize (Array arr) out) = (2 <=? Length arr)
  /\ forall a b rest,
       extractSize (Array (a :: b :: rest)) out = extractSize (Array [a; b]) out.
Proof.
  split.
  - cbn [extractSize]. rewrite Z.leb_antisym.
    destruct (Length arr <? 2); reflexivity.
  - intros a b rest. cbn [extractSize GetIndex nth].
    assert (L : (Length (a :: b :: rest) <? 2) = false).
    { unfold Length. cbn [List.length]. apply Z.ltb_ge. lia. }
    rewrite L. reflexivity.
Qed.

(** X5: an object with a "width" or a "height" always resolves, and a
    "tileGridSize" on it is not read. *)
Theorem X5_width_height_before_tileGridSize
    (obj : list (string * Value)) (nestedSize : Value) (out : Size) :
  Has obj "width" || Has obj "height" = true ->
  fst (extractSize (Object obj) out) = true
  /\ extractSize (Object (("tileGridSize", nestedSize) :: obj)) out
     = extractSize (Object obj) out.
Proof.
  intros H. cbn [extractSize Has Get String.eqb Ascii.eqb Bool.eqb].
  rewrite H. split; reflexivity.
Qed.

(** X6: a property that is not "width", "height" or "tileGridSize" makes no
    difference to the size an object resolves to. *)
Theorem X6_extractSize_other_keys
    (key : string) (v : Value) (obj : list (string * Value)) (out : Size) :
  key <> "width" -> key <> "height" -> key <> "tileGridSize" ->
  extractSize (Object ((key, v) :: obj)) out = extractSize (Object obj) out.
Proof.
  intros Hw Hh Ht.
  apply String.eqb_neq in Hw, Hh, Ht.
  cbn [extractSize Has Get]. rewrite Hw, Hh, Ht. reflexivity.
Qed.

(** X7: a value wrapped any number of times as [{tileGridSize: ...}]
    resolves as the value itself does. *)
Theorem X7_extractSize_nested (n : nat) (value : Value) (out : Size) :
  extractSize (nested n value) out = extractSize value out.
Proof.
  induction n as [| n IH]; [reflexivity |].
  cbn [nested]. rewrite extractSize_eq.
  cbn [IsArray IsObject ToObject Has Get String.eqb Ascii.eqb Bool.eqb orb andb].
  exact IH.
Qed.

(** X8: a number [N] resolves as the pair [[N, N]] and as
    [{width: N, height: N}] do: to the square of side
    [std::max(1, int(round(N)))]. *)
Theorem X8_extractSize_number_square (N : double) (out : Size) :
  extractSize (Number N) out = (true, mkSize (side_of N) (side_of N))
  /\ extractSize (Array [Number N; Number N]) out = extractSize (Number N) out
  /\ extractSize (Object [("width", Number N); ("height", Number N)]) out
     = extractSize (Number N) out.
Proof.
  repeat split.
Qed.

(** ** Further properties of the constructor *)

(** X9: with one argument the constructor returns the object exactly when
    the argument is [undefined], [null], a number, an object that is not an
    array, or a value that resolves to a size; for any other argument it
    raises "Invalid arguments for CLAHE constructor". *)
Theorem X9_New_first_argument (holder : ObjectRef) (a : Value) :
  fst (New (construct_call holder [a])) =
  if IsUndefined a || IsNull a || IsNumber a
     || (IsObject a && negb (IsArray a)) || fst (extractSize a (mkSize 8 8))
  then Returns (RObject holder)
  else throwError "CLAHE::New" "Invalid arguments for CLAHE constructor".
Proof.
  rewrite New_eq. unfold first_argument.
  cbn [construct_call IsConstructCall negb info_Length args List.length Z.of_nat
       Pos.of_succ_nat Z.ltb Z.compare Pos.compare Pos.compare_cont arg nth Holder].
  destruct a as [| | b | d | s | s | arr | obj]; try reflexivity.
  cbn [IsObject IsArray IsNumber IsUndefined IsNull andb orb negb parseClipLimit].
  destruct (extractSize (Array arr) (mkSize 8 8)) as [[|] tiles]; reflexivity.
Qed.

(** X10: the constructor reads its first two arguments and [Apply] too,
    the two setters read their first: what follows makes no difference. *)
Theorem X10_extra_arguments_ignored (self : CLAHE) (holder receiver : ObjectRef)
    (a b : Value) (rest : list Value) :
  New (construct_call holder (a :: b :: rest)) = New (construct_call holder [a; b])
  /\ Apply self (method_call receiver (a :: b :: rest))
     = Apply self (method_call receiver [a; b])
  /\ SetClipLimit self (method_call receiver (a :: rest))
     = SetClipLimit self (method_call receiver [a])
  /\ SetTilesGridSize self (method_call receiver (a :: rest))
     = SetTilesGridSize self (method_call receiver [a]).
Proof.
  split; [| split; [| split]].
  - rewrite !New_eq, !(first_argument_cons holder a (b :: _)).
    unfold construct_call. rewrite !info_Length_cons2. reflexivity.
  - unfold Apply, method_call. rewrite !info_Length_cons2. reflexivity.
  - reflexivity.
  - reflexivity.
Qed.

(** X11: when the constructor is given a second argument and builds the
    object, the second argument resolved to a size, which is the grid of the
    object; so the second argument was not [undefined] or [null]. *)
Theorem X11_New_second_argument_resolves (holder : ObjectRef) (a b : Value)
    (rest : list Value) (self : CLAHE) :
  snd (New (construct_call holder (a :: b :: rest))) = Some self ->
  fst (extractSize b (mkSize 8 8)) = true
  /\ IsUndefined b = false /\ IsNull b = false
  /\ exists tiles, getTilesGridSize (instance self) = snd (extractSize b tiles).
Proof.
  rewrite New_eq.
  destruct (first_argument _) as [[clipLimit tiles] |]; [| discriminate].
  unfold construct_call. rewrite info_Length_cons2.
  cbn [IsConstructCall negb arg args nth].
  destruct (fst (extractSize b tiles)) eqn:E; [| discriminate].
  cbn [snd]. intros [= <-].
  assert (E8 : fst (extractSize b (mkSize 8 8)) = true)
    by (rewrite (extractSize_flag b (mkSize 8 8) tiles); exact E).
  split; [exact E8 |].
  split; [destruct b; try reflexivity; discriminate |].
  split; [destruct b; try reflexivity; discriminate |].
  exists tiles. cbn [instance getTilesGridSize createCLAHE tilesGridSize_].
  apply extractSize_true_sanitized, E.
Qed.

(** X12: [undefined] or [null] as the only argument gives the object of
    [new CLAHE()], with clip limit 40.0; the same value under "clipLimit" in
    an options object is converted to a number and gives clip limit 0.0. *)
Theorem X12_nullish_clip_limit (holder : ObjectRef) (v : Value)
    (opts : list (string * Value)) :
  IsUndefined v || IsNull v = true ->
  Has opts "clipLimit" = true -> Get opts "clipLimit" = v ->
  New (construct_call holder [v]) = New (construct_call holder [])
  /\ exists tiles,
       New (construct_call holder [Object opts])
       = (Returns (RObject holder), Some (mkCLAHE (createCLAHE d0_0 tiles))).
Proof.
  intros Hv Hhas Hget. split.
  - destruct v; try discriminate; reflexivity.
  - eexists. rewrite New_eq, first_argument_options, Hhas, Hget.
    cbn [construct_call IsConstructCall negb info_Length args List.length Z.of_nat
         Pos.of_succ_nat Z.ltb Z.compare Pos.compare Pos.compare_cont Holder].
    destruct v; try discriminate; reflexivity.
Qed.

(** ** Further properties of the methods *)

(** X13: after [setClipLimit(x)] has returned, [getClipLimit()] and the
    property [clipLimit] give [x] when [x] is above zero and [0.0] when it
    is not, and [getTilesGridSize()] gives what it gave before. *)
Theorem X13_clip_limit_set_get (self : CLAHE) (info info' : FunctionCallbackInfo)
    (x : double) :
  DoubleConverter (nth_error (args info) 0) = Some x ->
  fst (GetClipLimit (snd (SetClipLimit self info)) info')
    = Returns (RNumber (if SFltb d0_0 x then x else d0_0))
  /\ ClipLimitGetter (snd (SetClipLimit self info))
    = Returns (RNumber (if SFltb d0_0 x then x else d0_0))
  /\ fst (GetTilesGridSize (snd (SetClipLimit self info)) info')
    = fst (GetTilesGridSize self info').
Proof.
  intros Hx. unfold ClipLimitGetter. rewrite SetClipLimit_eq, Hx.
  repeat split.
Qed.

(** X14: after [setTilesGridSize(v)] has returned, [getTilesGridSize()] and
    the property [tilesGridSize] give the size that [v] resolves to from the
    default 8 by 8, whatever the grid was before, each side as the double of
    that integer; [getClipLimit()] gives what it gave before. *)
Theorem X14_tiles_set_get (self : CLAHE) (info info' : FunctionCallbackInfo) :
  fst (extractSize (arg info 0) (mkSize 8 8)) = true ->
  fst (GetTilesGridSize (snd (SetTilesGridSize self info)) info')
    = Returns (RSize
        (double_of_int (width (snd (extractSize (arg info 0) (mkSize 8 8)))))
        (double_of_int (height (snd (extractSize (arg info 0) (mkSize 8 8))))))
  /\ TilesGridSizeGetter (snd (SetTilesGridSize self info))
    = Returns (RSize
        (double_of_int (width (snd (extractSize (arg info 0) (mkSize 8 8)))))
        (double_of_int (height (snd (extractSize (arg info 0) (mkSize 8 8))))))
  /\ (forall z, truncate (double_of_int z) = Some z)
  /\ fst (GetClipLimit (snd (SetTilesGridSize self info)) info')
     = fst (GetClipLimit self info').
Proof.
  intros H. unfold TilesGridSizeGetter. rewrite SetTilesGridSize_eq, H.
  split; [reflexivity |]. split; [reflexivity |].
  split; [exact truncate_double_of_int | reflexivity].
Qed.

(** The pair of doubles that the getter gives resolves back to the sides. *)
Lemma sides_round_trip (w h : Z) (out : Size) :
  1 <= w <= INT_MAX -> 1 <= h <= INT_MAX ->
  sanitizeSize
    (mkSize
       (static_cast_int (std_round (FromMaybe (To_double (Number (double_of_int w)))
                                      (double_of_int (width out)))))
       (static_cast_int (std_round (FromMaybe (To_double (Number (double_of_int h)))
                                      (double_of_int (height out))))))
  = mkSize w h.
Proof.
  intros Hw Hh. cbn [To_double FromMaybe].
  rewrite !std_round_double_of_int.
  rewrite (static_cast_int_fits _ w (truncate_double_of_int w))
    by (apply in_int_range_nonneg; lia).
  rewrite (static_cast_int_fits _ h (truncate_double_of_int h))
    by (apply in_int_range_nonneg; lia).
  apply sanitizeSize_fixed; cbn [width height]; lia.
Qed.

(** X15: on an object whose grid has both sides between 1 and [INT_MAX],
    giving [setTilesGridSize] the two numbers that [getTilesGridSize()]
    returned, as a pair or as [{width, height}], returns the receiver and
    leaves the object as it is. *)
Theorem X15_tiles_get_set (self : CLAHE) (receiver : ObjectRef)
    (info' : FunctionCallbackInfo) (dw dh : double) :
  1 <= width (getTilesGridSize (instance self)) <= INT_MAX ->
  1 <= height (getTilesGridSize (instance self)) <= INT_MAX ->
  fst (GetTilesGridSize self info') = Returns (RSize dw dh) ->
  SetTilesGridSize self (method_call receiver [Array [Number dw; Number dh]])
    = (Returns (RObject receiver), self)
  /\ SetTilesGridSize self
       (method_call receiver [Object [("width", Number dw); ("height", Number dh)]])
     = (Returns (RObject receiver), self).
Proof.
  destruct self as [[clip [w h]]].
  cbn [instance getTilesGridSize tilesGridSize_ width height GetTilesGridSize fst].
  intros Hw Hh [= <- <-].
  rewrite !SetTilesGridSize_eq.
  cbn [method_call arg args nth extractSize Length List.length Z.of_nat Pos.of_succ_nat
       Pos.succ Z.ltb Z.compare Pos.compare Pos.compare_cont GetIndex
       Has Get String.eqb Ascii.eqb Bool.eqb orb fst snd This
       instance getClipLimit clipLimit_].
  rewrite (sides_round_trip w h (mkSize 8 8) Hw Hh). split; reflexivity.
Qed.

(** X16: [setClipLimit] and [setTilesGridSize] commute: the object after
    the two calls is the same in either order, whether they return or
    raise. *)
Theorem X16_setters_commute (self : CLAHE) (i1 i2 : FunctionCallbackInfo) :
  snd (SetTilesGridSize (snd (SetClipLimit self i1)) i2)
  = snd (SetClipLimit (snd (SetTilesGridSize self i2)) i1).
Proof.
  rewrite !SetTilesGridSize_eq, !SetClipLimit_eq.
  destruct (DoubleConverter (nth_error (args i1) 0)) as [x |];
    destruct (fst (extractSize (arg i2 0) (mkSize 8 8))); reflexivity.
Qed.

(** X17: a setter that returns overwrites what an earlier call of the same
    setter did: the object is the one the later call alone would leave. *)
Theorem X17_last_setter_wins (m : Method) (self : CLAHE)
    (i1 i2 : FunctionCallbackInfo) (r : Returned) :
  is_setter m = true ->
  fst (invoke m self i2) = Returns r ->
  snd (invoke m (snd (invoke m self i1)) i2) = snd (invoke m self i2).
Proof.
  intros Hm. destruct m; try discriminate Hm; cbn [invoke].
  - rewrite !SetClipLimit_eq.
    destruct (DoubleConverter (nth_error (args i2) 0)) as [x2 |]; [| discriminate].
    intros _. destruct (DoubleConverter (nth_error (args i1) 0)); reflexivity.
  - rewrite !SetTilesGridSize_eq.
    destruct (fst (extractSize (arg i2 0) (mkSize 8 8))); [| discriminate].
    intros _. destruct (fst (extractSize (arg i1 0) (mkSize 8 8))); reflexivity.
Qed.

Lemma reader_keeps_object (m : Method) (self : CLAHE) (info : FunctionCallbackInfo) :
  is_setter m = false -> snd (invoke m self info) = self.
Proof.
  intros Hm. destruct m; try discriminate Hm; cbn [invoke].
  - Apply_cases info; reflexivity.
  - reflexivity.
  - reflexivity.
  - destruct self as [c]. reflexivity.
Qed.

(** X18: [apply], [getClipLimit], [getTilesGridSize] and [collectGarbage],
    called any number of times with any arguments, whether they return or
    raise, leave the clip limit and the grid of the object as they were. *)
Theorem X18_readers_keep_configuration (self : CLAHE)
    (calls : list (Method * FunctionCallbackInfo)) :
  Forall (fun call => is_setter (fst call) = false) calls ->
  run self calls = self.
Proof.
  intros H. revert self.
  induction H as [| [m info] rest Hm _ IH]; intros self; [reflexivity |].
  cbn [run]. rewrite (reader_keeps_object m self info Hm). apply IH.
Qed.

End Binding.

(** ** The binding on the sample platform *)

Local Abbreviation sample_extractSize := (extractSize plain_ConvertToNumber x86_indefinite).
Local Abbreviation sample_New := (New plain_ConvertToNumber x86_indefinite sample_Mat).
Local Abbreviation sample_SetClipLimit := (SetClipLimit number_DoubleConverter sample_Mat).
Local Abbreviation sample_SetTilesGridSize :=
  (SetTilesGridSize plain_ConvertToNumber x86_indefinite sample_Mat).
Local Abbreviation sample_run :=
  (run plain_ConvertToNumber x86_indefinite number_DoubleConverter sample_Mat
     sample_MatConverter [] sample_apply).

(** The scenarios of the spec. *)

Example size_of_0_minus_3 :
  sample_extractSize (Array [Number d0_0; Number (S754_finite true 3 0)]) (mkSize 8 8)
  = (true, mkSize 1 1).
Proof. reflexivity. Qed.

Example new_with_options :
  sample_New (construct_call 7%nat
    [Object [("clipLimit", Number d2_5);
             ("tileGridSize", Array [Number d4_0; Number d4_0])]])
  = (Returns _ (RObject _ 7%nat), Some (mkCLAHE (createCLAHE d2_5 (mkSize 4 4)))).
Proof. reflexivity. Qed.

Example new_with_clip_limit_and_size :
  sample_New (construct_call 7%nat [Number d2_5; Array [Number d4_0; Number d4_0]])
  = (Returns _ (RObject _ 7%nat), Some (mkCLAHE (createCLAHE d2_5 (mkSize 4 4)))).
Proof. reflexivity. Qed.

Example new_with_a_string :
  sample_New (construct_call 7%nat [String "bad"])
  = (throwError _ "CLAHE::New" "Invalid arguments for CLAHE constructor", None).
Proof. reflexivity. Qed.

Example new_with_negative_clip_limit :
  sample_New (construct_call 7%nat [Number dm5_0])
  = (Returns _ (RObject _ 7%nat), Some (mkCLAHE (createCLAHE d0_0 (mkSize 8 8)))).
Proof. reflexivity. Qed.

Example new_without_new :
  sample_New (method_call 7%nat [])
  = (NotConstructCall _ "CLAHE::New", None).
Proof. reflexivity. Qed.

(** A number that has no [int] value: the grid is what the platform makes of
    it, here 1 by 1. *)
Example new_with_grid_1e10 :
  truncate (std_round d1e10) = Some 10000000000
  /\ sample_New (construct_call 7%nat [Undefined; Number d1e10])
     = (Returns _ (RObject _ 7%nat), Some (mkCLAHE (createCLAHE d40_0 (mkSize 1 1)))).
Proof. split; reflexivity. Qed.

(** C8 at [{width: 5}] with the default 8 by 8: the height is 1, not 8. *)
Example size_of_width_only :
  sample_extractSize (Object [("width", Number d5_0)]) (mkSize 8 8)
  = (true, mkSize 5 1).
Proof. reflexivity. Qed.

Example new_with_width_only :
  sample_New (construct_call 7%nat [Object [("width", Number d4_0)]])
  = (Returns _ (RObject _ 7%nat), Some (mkCLAHE (createCLAHE d40_0 (mkSize 4 1)))).
Proof. reflexivity. Qed.

(** ** Inputs at which the specification, as worded, fails *)

(** C1 as stated fails at [w = 0.25], [h = 1.0]: both are positive and
    round to 0 and 1, and [[0.25, 1.0]] resolves to [(1, 1)], not [(0, 1)]. *)
Lemma C1_counterexample :
  SFltb d0_0 d0_25 = true /\ SFltb d0_0 d1_0 = true
  /\ truncate (std_round d0_25) = Some 0 /\ truncate (std_round d1_0) = Some 1
  /\ sample_extractSize (Array [Number d0_25; Number d1_0]) (mkSize 8 8)
     = (true, mkSize 1 1)
  /\ sample_extractSize (Array [Number d0_25; Number d1_0]) (mkSize 8 8)
     <> (true, mkSize 0 1).
Proof.
  repeat split; discriminate.
Qed.

(** C2 as stated fails at [N = 0.25] in the second position: [N] is above
    zero and rounds to 0, and the grid is [(1, 1)], not [(0, 0)]. *)
Lemma C2_counterexample :
  SFltb d0_0 d0_25 = true
  /\ truncate (std_round d0_25) = Some 0
  /\ sample_New (construct_call 7%nat [Undefined; Number d0_25])
     = (Returns _ (RObject _ 7%nat), Some (mkCLAHE (createCLAHE d40_0 (mkSize 1 1))))
  /\ mkSize 1 1 <> mkSize 0 0.
Proof.
  repeat split; discriminate.
Qed.


(** C5 as stated fails at [setTilesGridSize("bad")]: the message is "Unable
    to parse tilesGridSize", which is neither of the two. *)
Lemma C5_counterexample :
  sample_SetTilesGridSize (mkCLAHE (createCLAHE d40_0 (mkSize 8 8)))
    (method_call 7%nat [String "bad"])
  = (throwError _ "CLAHE::setTilesGridSize" "Unable to parse tilesGridSize",
     mkCLAHE (createCLAHE d40_0 (mkSize 8 8)))
  /\ "Unable to parse tilesGridSize" <> "Invalid arguments for CLAHE constructor"
  /\ "Unable to parse tilesGridSize" <> "Unable to parse tileGridSize".
Proof.
  repeat split; discriminate.
Qed.

(** ** The theorems at concrete inputs *)

(** C1 at [w = 2.5], [h = 4.0]: the three shapes resolve to [(3, 4)]. *)
Lemma C1_size_shapes_agree_witness :
  (SFltb d0_0 d2_5 = true /\ SFltb d0_0 d4_0 = true)
  /\ sample_extractSize (Array [Number d2_5; Number d4_0]) (mkSize 8 8)
     = (true, mkSize 3 4)
  /\ sample_extractSize (Object [("width", Number d2_5); ("height", Number d4_0)])
       (mkSize 8 8)
     = (true, mkSize 3 4)
  /\ sample_extractSize (Object [("tileGridSize", Array [Number d2_5; Number d4_0])])
       (mkSize 8 8)
     = (true, mkSize 3 4).
Proof.
  split; [split; reflexivity |].
  destruct (C1_size_shapes_agree plain_ConvertToNumber x86_indefinite
              d2_5 d4_0 (mkSize 8 8) eq_refl eq_refl) as (Ha & Hwh & Ht & _).
  split; [exact Ha |]. split; [exact Hwh | exact Ht].
Defined.

(** C2 at [N = 2.5]. *)
Lemma C2_number_dispatch_witness :
  SFltb d0_0 d2_5 = true
  /\ sample_New (construct_call 7%nat [Number d2_5])
     = (Returns _ (RObject _ 7%nat), Some (mkCLAHE (createCLAHE d2_5 (mkSize 8 8))))
  /\ sample_New (construct_call 7%nat [Undefined; Number d2_5])
     = (Returns _ (RObject _ 7%nat), Some (mkCLAHE (createCLAHE d40_0 (mkSize 3 3)))).
Proof.
  split; [reflexivity |].
  destruct (C2_number_dispatch plain_ConvertToNumber x86_indefinite sample_Mat
              d2_5 7%nat eq_refl) as (Hsole & Hsecond & _).
  split; [exact Hsole | exact Hsecond].
Defined.


(** C5 at [new CLAHE("bad")]. *)
Lemma C5_error_messages_witness :
  fst (sample_New (construct_call 7%nat [String "bad"]))
  = throwError _ "CLAHE::New" "Invalid arguments for CLAHE constructor"
  /\ ("Invalid arguments for CLAHE constructor" = "Invalid arguments for CLAHE constructor"
      \/ "Invalid arguments for CLAHE constructor" = "Unable to parse tileGridSize").
Proof.
  split; [reflexivity |].
  apply (proj1 (C5_error_messages plain_ConvertToNumber x86_indefinite
                  number_DoubleConverter sample_Mat sample_MatConverter [] sample_apply)
           (construct_call 7%nat [String "bad"]) "CLAHE::New").
  reflexivity.
Defined.

(** C6 at [new CLAHE({clipLimit: 2.5, tileGridSize: "bad"})] and at
    [new CLAHE({clipLimit: 2.5}, "bad")]. *)
Lemma C6_unresolved_tile_size_witness :
  (fst (sample_extractSize
          (Object [("clipLimit", Number d2_5); ("tileGridSize", String "bad")])
          (mkSize 8 8)) = false
   /\ fst (sample_extractSize (String "bad") (mkSize 8 8)) = false)
  /\ (exists clipLimit,
        sample_New (construct_call 7%nat
          [Object [("clipLimit", Number d2_5); ("tileGridSize", String "bad")]])
        = (Returns _ (RObject _ 7%nat),
           Some (mkCLAHE (createCLAHE clipLimit (mkSize 8 8)))))
  /\ sample_New (construct_call 7%nat
       [Object [("clipLimit", Number d2_5); ("tileGridSize", String "bad")];
        String "bad"])
     = (throwError _ "CLAHE::New" "Unable to parse tileGridSize", None).
Proof.
  split; [split; reflexivity |].
  destruct (C6_unresolved_tile_size plain_ConvertToNumber x86_indefinite sample_Mat
              7%nat [("clipLimit", Number d2_5); ("tileGridSize", String "bad")]
              (String "bad") []) as (Hopts & Hsecond).
  split; [exact (Hopts eq_refl) | exact (proj1 (Hsecond eq_refl))].
Defined.

(** C7 at [setTilesGridSize("bad")] on an object with clip limit 2.5 and a
    4 by 4 grid. *)
Lemma C7_failure_keeps_configuration_witness :
  (forall r,
      fst (sample_SetTilesGridSize (mkCLAHE (createCLAHE d2_5 (mkSize 4 4)))
             (method_call 7%nat [String "bad"])) <> Returns _ r)
  /\ snd (sample_SetTilesGridSize (mkCLAHE (createCLAHE d2_5 (mkSize 4 4)))
            (method_call 7%nat [String "bad"]))
     = mkCLAHE (createCLAHE d2_5 (mkSize 4 4)).
Proof.
  assert (H : forall r,
             fst (sample_SetTilesGridSize (mkCLAHE (createCLAHE d2_5 (mkSize 4 4)))
                    (method_call 7%nat [String "bad"])) <> Returns _ r)
    by (intros r; discriminate).
  split; [exact H |].
  exact (proj1 (proj2 (C7_failure_keeps_configuration plain_ConvertToNumber
                         x86_indefinite number_DoubleConverter sample_Mat)) _ _ H).
Defined.

(** C9 at [setClipLimit(2.5)], [setTilesGridSize([4, 4])] and
    [collectGarbage()] on object 7. *)
Lemma C9_returns_receiver_witness :
  fst (sample_SetClipLimit (mkCLAHE (createCLAHE d40_0 (mkSize 8 8)))
         (method_call 7%nat [Number d2_5]))
  = Returns _ (RObject _ 7%nat)
  /\ fst (sample_SetTilesGridSize (mkCLAHE (createCLAHE d40_0 (mkSize 8 8)))
            (method_call 7%nat [Array [Number d4_0; Number d4_0]]))
     = Returns _ (RObject _ 7%nat)
  /\ fst (CollectGarbage sample_Mat (mkCLAHE (createCLAHE d40_0 (mkSize 8 8)))
            (method_call 7%nat []))
     = Returns _ (RObject _ 7%nat).
Proof.
  split; [| split].
  - exact (proj1 (C9_returns_receiver plain_ConvertToNumber x86_indefinite
                    number_DoubleConverter sample_Mat
                    (mkCLAHE (createCLAHE d40_0 (mkSize 8 8)))
                    (method_call 7%nat [Number d2_5])) d2_5 eq_refl).
  - exact (proj1 (proj2 (C9_returns_receiver plain_ConvertToNumber x86_indefinite
                           number_DoubleConverter sample_Mat
                           (mkCLAHE (createCLAHE d40_0 (mkSize 8 8)))
                           (method_call 7%nat [Array [Number d4_0; Number d4_0]])))
             eq_refl).
  - exact (proj1 (proj2 (proj2 (C9_returns_receiver plain_ConvertToNumber x86_indefinite
                                  number_DoubleConverter sample_Mat
                                  (mkCLAHE (createCLAHE d40_0 (mkSize 8 8)))
                                  (method_call 7%nat []))))).
Defined.

(** ** The further properties at concrete inputs *)

Local Abbreviation sample_GetClipLimit := (GetClipLimit sample_Mat).
Local Abbreviation sample_GetTilesGridSize := (GetTilesGridSize sample_Mat).
Local Abbreviation sample_invoke :=
  (invoke plain_ConvertToNumber x86_indefinite number_DoubleConverter sample_Mat
     sample_MatConverter [] sample_apply).

(** X19: a pair of numbers whose rounded values [zw] and [zh] fit an [int],
    positive or not, resolves to [(max 1 zw, max 1 zh)] on every platform and
    from every [out]: no conversion that is left to the platform is
    reached. *)
Theorem X19_sizes_in_range_on_every_platform
    (ConvertToNumber ConvertToNumber' : Value -> option double)
    (int_of_unrepresentable int_of_unrepresentable' : double -> Z)
    (w h : double) (zw zh : Z) (out out' : Size) :
  truncate (std_round w) = Some zw -> truncate (std_round h) = Some zh ->
  in_int_range zw = true -> in_int_range zh = true ->
  extractSize ConvertToNumber int_of_unrepresentable
    (Array [Number w; Number h]) out
  = (true, mkSize (Z.max 1 zw) (Z.max 1 zh))
  /\ extractSize ConvertToNumber' int_of_unrepresentable'
       (Array [Number w; Number h]) out'
     = extractSize ConvertToNumber int_of_unrepresentable
         (Array [Number w; Number h]) out.
Proof.
  intros Hw Hh Rw Rh.
  assert (E : forall conv ub o,
             extractSize conv ub (Array [Number w; Number h]) o
             = (true, mkSize (Z.max 1 zw) (Z.max 1 zh))).
  { intros conv ub o.
    cbn [extractSize Length List.length Z.of_nat Pos.of_succ_nat Pos.succ Z.ltb
         Z.compare Pos.compare Pos.compare_cont GetIndex nth To_double FromMaybe].
    rewrite (static_cast_int_fits ub _ zw Hw Rw), (static_cast_int_fits ub _ zh Hh Rh).
    apply (f_equal (pair true)), sanitizeSize_max. }
  split; [apply E |]. rewrite !E. reflexivity.
Qed.

Lemma X2_extractSize_failure_frame_witness :
  fst (sample_extractSize (Object [("tileGridSize", Array [Number d4_0])]) (mkSize 8 8))
  = false
  /\ snd (sample_extractSize (Object [("tileGridSize", Array [Number d4_0])]) (mkSize 8 8))
     = mkSize 8 8
  /\ sample_extractSize (Object [("tileGridSize", Array [Number d4_0])]) (mkSize 3 4)
     = (false, mkSize 3 4).
Proof.
  split; [reflexivity |].
  apply (X2_extractSize_failure_frame plain_ConvertToNumber x86_indefinite
           (Object [("tileGridSize", Array [Number d4_0])]) (mkSize 8 8) (mkSize 3 4)).
  reflexivity.
Defined.

Lemma X3_extractSize_resolved_positive_witness :
  sample_extractSize (Array [Number d0_0; Number (S754_finite true 3 0)]) (mkSize 8 8)
  = (true, mkSize 1 1)
  /\ 1 <= width (snd (sample_extractSize
                        (Array [Number d0_0; Number (S754_finite true 3 0)]) (mkSize 8 8)))
  /\ 1 <= height (snd (sample_extractSize
                         (Array [Number d0_0; Number (S754_finite true 3 0)]) (mkSize 8 8))).
Proof.
  split; [reflexivity |].
  destruct (X3_extractSize_resolved_positive plain_ConvertToNumber x86_indefinite
              (Array [Number d0_0; Number (S754_finite true 3 0)]) (mkSize 8 8) eq_refl)
    as (Hw & Hh & _).
  split; [exact Hw | exact Hh].
Defined.

Lemma X5_width_height_before_tileGridSize_witness :
  sample_extractSize
    (Object [("tileGridSize", Array [Number d2_5; Number d2_5]);
             ("width", Number d5_0); ("height", Number d4_0)]) (mkSize 8 8)
  = (true, mkSize 5 4).
Proof.
  rewrite (proj2 (X5_width_height_before_tileGridSize plain_ConvertToNumber x86_indefinite
                    [("width", Number d5_0); ("height", Number d4_0)]
                    (Array [Number d2_5; Number d2_5]) (mkSize 8 8) eq_refl)).
  reflexivity.
Defined.

Lemma X6_extractSize_other_keys_witness :
  sample_extractSize
    (Object [("clipLimit", Number d2_5); ("tileGridSize", Array [Number d4_0; Number d4_0])])
    (mkSize 8 8)
  = sample_extractSize
      (Object [("tileGridSize", Array [Number d4_0; Number d4_0])]) (mkSize 8 8).
Proof.
  apply (X6_extractSize_other_keys plain_ConvertToNumber x86_indefinite
           "clipLimit" (Number d2_5)
           [("tileGridSize", Array [Number d4_0; Number d4_0])] (mkSize 8 8));
    discriminate.
Defined.

Lemma X11_New_second_argument_resolves_witness :
  snd (sample_New (construct_call 7%nat [Number d2_5; Array [Number d4_0; Number d4_0]]))
  = Some (mkCLAHE (createCLAHE d2_5 (mkSize 4 4)))
  /\ fst (sample_extractSize (Array [Number d4_0; Number d4_0]) (mkSize 8 8)) = true.
Proof.
  split; [reflexivity |].
  apply (X11_New_second_argument_resolves plain_ConvertToNumber x86_indefinite sample_Mat
           7%nat (Number d2_5) (Array [Number d4_0; Number d4_0]) []
           (mkCLAHE (createCLAHE d2_5 (mkSize 4 4))) eq_refl).
Defined.

Lemma X12_nullish_clip_limit_witness :
  sample_New (construct_call 7%nat [Undefined]) = sample_New (construct_call 7%nat [])
  /\ exists tiles,
       sample_New (construct_call 7%nat [Object [("clipLimit", Undefined)]])
       = (Returns _ (RObject _ 7%nat), Some (mkCLAHE (createCLAHE d0_0 tiles))).
Proof.
  apply (X12_nullish_clip_limit plain_ConvertToNumber x86_indefinite sample_Mat
           7%nat Undefined [("clipLimit", Undefined)]); reflexivity.
Defined.

Lemma X13_clip_limit_set_get_witness :
  fst (sample_GetClipLimit
         (snd (sample_SetClipLimit (mkCLAHE (createCLAHE d40_0 (mkSize 8 8)))
                 (method_call 7%nat [Number dm5_0])))
         (method_call 7%nat []))
  = Returns _ (RNumber _ d0_0).
Proof.
  apply (X13_clip_limit_set_get number_DoubleConverter sample_Mat
           (mkCLAHE (createCLAHE d40_0 (mkSize 8 8)))
           (method_call 7%nat [Number dm5_0]) (method_call 7%nat []) dm5_0 eq_refl).
Defined.

Lemma X14_tiles_set_get_witness :
  fst (sample_GetTilesGridSize
         (snd (sample_SetTilesGridSize (mkCLAHE (createCLAHE d40_0 (mkSize 8 8)))
                 (method_call 7%nat [Array [Number d2_5; Number d4_0]])))
         (method_call 7%nat []))
  = Returns _ (RSize _ (S754_finite false 3 0) (S754_finite false 4 0)).
Proof.
  exact (proj1 (X14_tiles_set_get plain_ConvertToNumber x86_indefinite sample_Mat
                  (mkCLAHE (createCLAHE d40_0 (mkSize 8 8)))
                  (method_call 7%nat [Array [Number d2_5; Number d4_0]])
                  (method_call 7%nat []) eq_refl)).
Defined.

Lemma X15_tiles_get_set_witness :
  sample_SetTilesGridSize (mkCLAHE (createCLAHE d40_0 (mkSize 3 4)))
    (method_call 7%nat [Array [Number (double_of_int 3); Number (double_of_int 4)]])
  = (Returns _ (RObject _ 7%nat), mkCLAHE (createCLAHE d40_0 (mkSize 3 4))).
Proof.
  apply (X15_tiles_get_set plain_ConvertToNumber x86_indefinite sample_Mat
           (mkCLAHE (createCLAHE d40_0 (mkSize 3 4))) 7%nat (method_call 7%nat [])
           (double_of_int 3) (double_of_int 4));
    [cbn; unfold INT_MAX; lia | cbn; unfold INT_MAX; lia | reflexivity].
Defined.

Lemma X17_last_setter_wins_witness :
  snd (sample_invoke setTilesGridSize_
         (snd (sample_invoke setTilesGridSize_ (mkCLAHE (createCLAHE d40_0 (mkSize 8 8)))
                 (method_call 7%nat [Number d4_0])))
         (method_call 7%nat [Array [Number d2_5; Number d4_0]]))
  = mkCLAHE (createCLAHE d40_0 (mkSize 3 4)).
Proof.
  rewrite (X17_last_setter_wins plain_ConvertToNumber x86_indefinite
             number_DoubleConverter sample_Mat sample_MatConverter [] sample_apply
             setTilesGridSize_ (mkCLAHE (createCLAHE d40_0 (mkSize 8 8)))
             (method_call 7%nat [Number d4_0])
             (method_call 7%nat [Array [Number d2_5; Number d4_0]])
             (RObject _ 7%nat) eq_refl eq_refl).
  reflexivity.
Defined.

Lemma X18_readers_keep_configuration_witness :
  sample_run (mkCLAHE (createCLAHE d2_5 (mkSize 3 4)))
    [(getClipLimit_, method_call 7%nat []);
     (apply_, method_call 7%nat [Array [Array [Number d1_0]]; Null]);
     (apply_, method_call 7%nat [String "bad"]);
     (getTilesGridSize_, method_call 7%nat []);
     (collectGarbage_, method_call 7%nat [])]
  = mkCLAHE (createCLAHE d2_5 (mkSize 3 4)).
Proof.
  apply (X18_readers_keep_configuration plain_ConvertToNumber x86_indefinite
           number_DoubleConverter sample_Mat sample_MatConverter [] sample_apply).
  repeat constructor.
Defined.

Lemma X19_sizes_in_range_on_every_platform_witness :
  sample_extractSize (Array [Number d0_0; Number (S754_finite true 3 0)]) (mkSize 8 8)
  = (true, mkSize 1 1)
  /\ extractSize (fun _ => None) (fun _ => 0)
       (Array [Number d0_0; Number (S754_finite true 3 0)]) (mkSize 2 2)
     = sample_extractSize (Array [Number d0_0; Number (S754_finite true 3 0)]) (mkSize 8 8).
Proof.
  apply (X19_sizes_in_range_on_every_platform plain_ConvertToNumber (fun _ => None)
           x86_indefinite (fun _ => 0) d0_0 (S754_finite true 3 0) 0 (-3)
           (mkSize 8 8) (mkSize 2 2)); reflexivity.
Defined.
